(** * locustfile.py: the [Pokemon] simulated user and its [list] task

    The script declares one class, [Pokemon(HttpUser)], with the class
    attribute [BASE_URL] and one [@task] method:

<<
    def list(self):
        self.client.get(f"{self.BASE_URL}/pokemon")
>>

    The development embeds the method in a small state-and-exception monad
    over a Python object store (a class dictionary and one dictionary per
    instance).  The HTTP session behind [self.client] belongs to the load
    testing framework; it is a parameter of the development. *)

From stdpp Require Import base option strings gmap list.

Local Open Scope string_scope.

(** ** The interface of the HTTP session ([requests.Session] as subclassed
    by the framework) *)

Module Http.

Inductive http_method := GET | OPTIONS | HEAD | POST | PUT | PATCH | DELETE.

(** Keyword arguments of [Session.request]; an absent keyword is [None]. *)
Record kwargs := {
  params : option (list (string * string));
  data : option string;
  json : option string;
  headers : option (list (string * string));
  cookies : option (list (string * string));
  auth : option (string * string)
}.

Definition no_kwargs : kwargs :=
  {| params := None; data := None; json := None;
     headers := None; cookies := None; auth := None |}.

Record request := {
  method : http_method;
  url : string;
  args : kwargs
}.

Record response := {
  status_code : nat;
  content : string
}.

(** What a session can raise instead of returning a response. *)
Inductive request_failure :=
| Timeout
| ConnectionError
| HTTPError (status : nat)
| OtherFailure (name : string).

Inductive outcome :=
| Responded (r : response)
| Failed (e : request_failure).

(** [Session.get(url, **kwargs)] is [Session.request("GET", url, **kwargs)]. *)
Definition Session_get (u : string) (kw : kwargs) : request :=
  {| method := GET; url := u; args := kw |}.

End Http.

(** ** Python values, exceptions and the object store *)

Module Py.

(** The kinds of value the stores of this script hold: [None], strings,
    plain functions (the methods of the class) and the framework's
    sessions.  Other Python objects are not represented. *)
Inductive value :=
| VNone
| VStr (s : string)
| VFunc (qualname : string)
| VSession (h : nat).

Definition type_name (v : value) : string :=
  match v with
  | VNone => "NoneType"
  | VStr _ => "str"
  | VFunc _ => "function"
  | VSession _ => "HttpSession"
  end.

Inductive exn :=
| AttributeError (owner attr : string)
| RequestException (e : Http.request_failure).

Inductive result (A : Type) :=
| Ok (a : A)
| Raise (e : exn).
Arguments Ok {A} a.
Arguments Raise {A} e.

Section Store.

(** Everything outside the script: the service under test, the network,
    the sessions' cookies and pools, the framework's statistics. *)
Context {World : Type}.

Record state := {
  cls : gmap string value;            (* Pokemon.__dict__ *)
  objs : gmap nat (gmap string value); (* instance __dict__, by identity *)
  world : World;
  sent : Datatypes.list Http.request  (* requests handed to a session so far *)
}.

Definition M (A : Type) : Type := state → result A * state.

Definition ret {A} (a : A) : M A := λ s, (Ok a, s).

Definition raise {A} (e : exn) : M A := λ s, (Raise e, s).

Definition bind {A B} (m : M A) (k : A → M B) : M B :=
  λ s, match m s with
       | (Ok a, s') => k a s'
       | (Raise e, s') => (Raise e, s')
       end.

(** Attribute lookup on an instance of [Pokemon]: the instance
    dictionary first, then the class dictionary.  An identity without a
    dictionary of its own reads as an instance with no attributes. *)
Definition getattr (o : nat) (name : string) : M value :=
  λ s, match default ∅ (objs s !! o) !! name with
       | Some v => (Ok v, s)
       | None =>
           match cls s !! name with
           | Some v => (Ok v, s)
           | None => (Raise (AttributeError "Pokemon" name), s)
           end
       end.

(** The session's behaviour on a request, for the session [h]. *)
Context (transport : nat → Http.request → World → Http.outcome * World).

Definition Session_request (h : nat) (q : Http.request) : M Http.response :=
  λ s, let '(out, w') := transport h q (world s) in
       let s' := {| cls := cls s; objs := objs s; world := w';
                    sent := sent s ++ [q] |} in
       match out with
       | Http.Responded r => (Ok r, s')
       | Http.Failed e => (Raise (RequestException e), s')
       end.

(** Loading the attribute [get] of a value gives the bound method, or
    raises [AttributeError] for a value that has none. *)
Definition getattr_get (v : value)
  : M (string → Http.kwargs → M Http.response) :=
  match v with
  | VSession h => ret (λ u kw, Session_request h (Http.Session_get u kw))
  | _ => raise (AttributeError (type_name v) "get")
  end.

(** The text of objects that print as [<... object at 0x...>]. *)
Context (object_repr : value → string).

(** [format(v)] with an empty format spec, the conversion of a replacement field. *)
Definition format_value (v : value) : string :=
  match v with
  | VStr s => s
  | VNone => "None"
  | _ => object_repr v
  end.

End Store.

Arguments state : clear implicits.
Arguments M : clear implicits.

End Py.

Notation "x <~ m ;; k" := (Py.bind m (λ x, k))
  (at level 100, m at next level, right associativity, only parsing).


(** ** What the framework reads from a locustfile *)

Module Locust.

Section Declarations.

Context {World : Type}.

(** A statement of a class body: an assignment of a constant, or a method
    definition with its decorators. *)
Inductive member :=
| Assign (name : string) (v : Py.value)
| Def (name : string) (decorators : list string) (body : nat → Py.M World Py.value).

Record classdef := {
  cname : string;
  bases : list string;
  body : list member
}.

Definition member_name (m : member) : string :=
  match m with
  | Assign n _ => n
  | Def n _ _ => n
  end.

Definition member_value (c : string) (m : member) : Py.value :=
  match m with
  | Assign _ v => v
  | Def n _ _ => Py.VFunc (c +:+ "." +:+ n)
  end.

(** The class dictionary a class body leaves behind: the statements run in
    order, and a later binding of a name replaces an earlier one. *)
Definition class_dict (c : classdef) : gmap string Py.value :=
  foldl (λ d m, <[member_name m := member_value (cname c) m]> d) ∅ (body c).

(** The simulated-user classes of a module are its subclasses of [HttpUser]. *)
Definition user_classes (module : list classdef) : list classdef :=
  filter (λ c, "HttpUser" ∈ bases c) module.

(** The tasks of a class are its methods decorated with [@task]. *)
Definition tasks (c : classdef) : list (string * (nat → Py.M World Py.value)) :=
  omap (λ m, match m with
             | Def n ds b => if bool_decide ("task" ∈ ds) then Some (n, b) else None
             | Assign _ _ => None
             end) (body c).

(** [HttpUser.__init__] gives the new instance its session. *)
Definition HttpUser_init (h : nat) : gmap string Py.value :=
  {[ "client" := Py.VSession h ]}.

End Declarations.

Arguments member : clear implicits.
Arguments classdef : clear implicits.

End Locust.

(** ** The script *)

Module Pokemon.

Section Script.

Context {World : Type}.
Context (transport : nat → Http.request → World → Http.outcome * World).
Context (object_repr : Py.value → string).

Definition BASE_URL : string := "http://node-api:4444".

(** [self.client.get(f"{self.BASE_URL}/pokemon")]: the callee
    [self.client.get] is evaluated before the argument, the value of the
    call is dropped, and the method falls off its end. *)
Definition list (self : nat) : Py.M World Py.value :=
  client <~ Py.getattr self "client" ;;
  get <~ Py.getattr_get transport client ;;
  base <~ Py.getattr self "BASE_URL" ;;
  _ <~ get (Py.format_value object_repr base +:+ "/pokemon") Http.no_kwargs ;;
  Py.ret Py.VNone.

(** [class Pokemon(HttpUser)] with its two statements. *)
Definition decl : Locust.classdef World :=
  {| Locust.cname := "Pokemon";
     Locust.bases := ["HttpUser"];
     Locust.body := [ Locust.Assign "BASE_URL" (Py.VStr BASE_URL);
                      Locust.Def "list" ["task"] list ] |}.

End Script.

End Pokemon.

(** ** Running the script under the framework *)

Section Run.

Context {World : Type}.
Context (transport : nat → Http.request → World → Http.outcome * World).
Context (object_repr : Py.value → string).

(** The module: one class statement. *)
Definition locustfile : list (Locust.classdef World) :=
  [ Pokemon.decl transport object_repr ].

(** The store once the module has been imported. *)
Definition init (w : World) : Py.state World :=
  {| Py.cls := Locust.class_dict (Pokemon.decl transport object_repr);
     Py.objs := ∅; Py.world := w; Py.sent := [] |}.

(** The framework constructs a user with identity [o] and session [h]. *)
Definition spawn (o h : nat) (s : Py.state World) : Py.state World :=
  {| Py.cls := Py.cls s; Py.objs := <[o := Locust.HttpUser_init h]> (Py.objs s);
     Py.world := Py.world s; Py.sent := Py.sent s |}.

(** The world moves on its own (the service, the network, the clock). *)
Definition drift (w : World) (s : Py.state World) : Py.state World :=
  {| Py.cls := Py.cls s; Py.objs := Py.objs s; Py.world := w; Py.sent := Py.sent s |}.

Inductive step : Py.state World → Py.state World → Prop :=
| step_spawn s o h :
    Py.objs s !! o = None → step s (spawn o h s)
| step_task s c name run o :
    c ∈ Locust.user_classes locustfile →
    (name, run) ∈ Locust.tasks c →
    is_Some (Py.objs s !! o) →
    step s (run o s).2
| step_drift s w :
    step s (drift w s).

Inductive reachable : Py.state World → Prop :=
| reachable_init w : reachable (init w)
| reachable_step s s' : reachable s → step s s' → reachable s'.

(** The requests a computation hands to a session when run from [s]. *)
Definition issued {A} (m : Py.M World A) (s : Py.state World) : list Http.request :=
  drop (length (Py.sent s)) (Py.sent (m s).2).

(** A live user in the shape the framework gives it. *)
Definition user_ok (s : Py.state World) (o : nat) : Prop :=
  Py.cls s !! "BASE_URL" = Some (Py.VStr Pokemon.BASE_URL) ∧
  ∃ d h, Py.objs s !! o = Some d ∧
         d !! "client" = Some (Py.VSession h) ∧
         d !! "BASE_URL" = None.

(** The session of a user, when its [client] attribute holds one. *)
Definition session_of (s : Py.state World) (o : nat) : option nat :=
  match Py.getattr o "client" s with
  | (Py.Ok (Py.VSession h), _) => Some h
  | _ => None
  end.

(** The one request of the script. *)
Definition list_request : Http.request :=
  Http.Session_get (Pokemon.BASE_URL +:+ "/pokemon") Http.no_kwargs.

(** The state a request leaves behind: only the world and the log move. *)
Definition after_request (s : Py.state World) (w' : World) : Py.state World :=
  {| Py.cls := Py.cls s; Py.objs := Py.objs s; Py.world := w';
     Py.sent := Py.sent s ++ [list_request] |}.

(** The shape of every store the framework can reach: the class dictionary
    is the one the class body left, and each instance dictionary is the one
    [HttpUser.__init__] filled. *)
Definition store_inv (s : Py.state World) : Prop :=
  Py.cls s = Locust.class_dict (Pokemon.decl transport object_repr) ∧
  ∀ o d, Py.objs s !! o = Some d → ∃ h, d = Locust.HttpUser_init h.

(** The store after a session has taken the request [q] and left the
    world [w']: the dictionaries stay, the log grows by [q]. *)
Definition after_get (s : Py.state World) (q : Http.request) (w' : World)
  : Py.state World :=
  {| Py.cls := Py.cls s; Py.objs := Py.objs s; Py.world := w';
     Py.sent := Py.sent s ++ [q] |}.

(** A sequence of runs of the task, one per scheduled user, each started in
    the store the previous run left, whatever that run returned or raised. *)
Definition run_tasks (sched : list nat) (s : Py.state World) : Py.state World :=
  foldl (λ s' o, (Pokemon.list transport object_repr o s').2) s sched.

End Run.

(** ** Concrete sessions and stores *)

Module Demo.

(** A service that answers every request with 200 and counts them. *)
Definition up (h : nat) (q : Http.request) (served : nat) : Http.outcome * nat :=
  (Http.Responded {| Http.status_code := 200; Http.content := "[]" |}, S served).

(** A service that cannot be reached. *)
Definition down (h : nat) (q : Http.request) (served : nat) : Http.outcome * nat :=
  (Http.Failed Http.ConnectionError, served).

(** A service that answers 404. *)
Definition missing (h : nat) (q : Http.request) (served : nat) : Http.outcome * nat :=
  (Http.Responded {| Http.status_code := 404; Http.content := "Not Found" |}, S served).

Definition repr (v : Py.value) : string := "<" +:+ Py.type_name v +:+ " object>".

(** One user, identity 0, session 7, spawned right after import. *)
Definition one_user (t : nat → Http.request → nat → Http.outcome * nat)
  : Py.state nat :=
  spawn 0 7 (init t repr 0).

(** The store after user 0 has run its task once and a second user,
    identity 1 with session 8, has been spawned. *)
Definition later (t : nat → Http.request → nat → Http.outcome * nat)
  : Py.state nat :=
  spawn 1 8 (Pokemon.list t repr 0 (one_user t)).2.

(** A store no step of the framework produces: user 0 carries a [BASE_URL]
    of its own in its instance dictionary. *)
Definition patched (t : nat → Http.request → nat → Http.outcome * nat)
  : Py.state nat :=
  {| Py.cls := Py.cls (one_user t);
     Py.objs := <[0 := <["BASE_URL" := Py.VStr "http://localhost:8080"]>
                         (Locust.HttpUser_init 7)]> (Py.objs (one_user t));
     Py.world := 0; Py.sent := [] |}.

(** A store in which the class has lost its [BASE_URL] attribute. *)
Definition unconfigured (t : nat → Http.request → nat → Http.outcome * nat)
  : Py.state nat :=
  {| Py.cls := delete "BASE_URL" (Py.cls (one_user t));
     Py.objs := Py.objs (one_user t); Py.world := 0; Py.sent := [] |}.

(** A store in which the [client] of user 0 has been set to [None]. *)
Definition clientless (t : nat → Http.request → nat → Http.outcome * nat)
  : Py.state nat :=
  {| Py.cls := Py.cls (one_user t);
     Py.objs := <[0 := {[ "client" := Py.VNone ]}]> (Py.objs (one_user t));
     Py.world := 0; Py.sent := [] |}.

End Demo.

Example demo_list_up :
  Pokemon.list Demo.up Demo.repr 0 (Demo.one_user Demo.up)
  = (Py.Ok Py.VNone,
     {| Py.cls := Py.cls (Demo.one_user Demo.up);
        Py.objs := Py.objs (Demo.one_user Demo.up);
        Py.world := 1;
        Py.sent := [ {| Http.method := Http.GET;
                        Http.url := "http://node-api:4444/pokemon";
                        Http.args := Http.no_kwargs |} ] |}).
Proof. vm_compute. reflexivity. Qed.

Example demo_list_down :
  Pokemon.list Demo.down Demo.repr 0 (Demo.one_user Demo.down)
  = (Py.Raise (Py.RequestException Http.ConnectionError),
     after_request (Demo.one_user Demo.down) 0).
Proof. vm_compute. reflexivity. Qed.

(** An identity the framework never spawned has no [client]: the attribute
    load raises before any request is made. *)
Example demo_list_unspawned :
  Pokemon.list Demo.up Demo.repr 5 (Demo.one_user Demo.up)
  = (Py.Raise (Py.AttributeError "Pokemon" "client"), Demo.one_user Demo.up).
Proof. vm_compute. reflexivity. Qed.

(** Attribute lookup is dynamic: on the patched store the request follows
    the instance attribute.  The properties below are therefore stated for
    the stores the framework reaches, where no instance has such an
    attribute. *)
Example demo_list_patched :
  issued (Pokemon.list Demo.up Demo.repr 0) (Demo.patched Demo.up)
  = [ Http.Session_get "http://localhost:8080/pokemon" Http.no_kwargs ].
Proof. vm_compute. reflexivity. Qed.

(** * Properties *)

Section Properties.

Context {World : Type}.
Context (transport : nat → Http.request → World → Http.outcome * World).
Context (object_repr : Py.value → string).

Abbreviation list_task := (Pokemon.list transport object_repr).
Abbreviation Pokemon_decl := (Pokemon.decl transport object_repr).
Abbreviation reachable_state := (reachable transport object_repr).
Abbreviation store_ok := (store_inv transport object_repr).

(** ** What the framework collects from the module *)

Lemma user_classes_locustfile :
  Locust.user_classes (locustfile transport object_repr) = [Pokemon_decl].
Proof. reflexivity. Qed.

Lemma tasks_Pokemon :
  Locust.tasks Pokemon_decl = [("list", list_task)].
Proof. reflexivity. Qed.

Lemma class_dict_BASE_URL :
  Locust.class_dict Pokemon_decl !! "BASE_URL" = Some (Py.VStr Pokemon.BASE_URL).
Proof. reflexivity. Qed.

Lemma class_dict_client :
  Locust.class_dict Pokemon_decl !! "client" = None.
Proof. reflexivity. Qed.

(** ** The frame of the task: no dictionary is written, in any store *)

Lemma Session_request_frame h q s :
  Py.cls (Py.Session_request transport h q s).2 = Py.cls s ∧
  Py.objs (Py.Session_request transport h q s).2 = Py.objs s.
Proof.
  unfold Py.Session_request.
  destruct (transport h q (Py.world s)) as [[r|e] w']; done.
Qed.

Lemma getattr_state o name (s : Py.state World) : (Py.getattr o name s).2 = s.
Proof.
  unfold Py.getattr.
  destruct (default ∅ (Py.objs s !! o) !! name); [done|].
  by destruct (Py.cls s !! name).
Qed.

Lemma list_frame o s :
  Py.cls (list_task o s).2 = Py.cls s ∧ Py.objs (list_task o s).2 = Py.objs s.
Proof.
  unfold Pokemon.list, Py.bind.
  pose proof (getattr_state o "client" s) as Hc.
  destruct (Py.getattr o "client" s) as [[c|e] s1]; simpl in Hc; subst s1; [|done].
  destruct c as [ | t | f | h]; simpl; try done.
  pose proof (getattr_state o "BASE_URL" s) as Hb.
  destruct (Py.getattr o "BASE_URL" s) as [[b|e] s1]; simpl in Hb; subst s1; [|done].
  pose proof (Session_request_frame h
    (Http.Session_get (Py.format_value object_repr b +:+ "/pokemon") Http.no_kwargs) s)
    as Hf.
  destruct (Py.Session_request transport h _ s) as [[r|e] s2]; exact Hf.
Qed.

(** ** The task on a user in the framework's shape *)

Lemma getattr_client_ok (s : Py.state World) o d h :
  Py.objs s !! o = Some d → d !! "client" = Some (Py.VSession h) →
  Py.getattr o "client" s = (Py.Ok (Py.VSession h), s).
Proof. intros Ho Hc. unfold Py.getattr. rewrite Ho. simpl. by rewrite Hc. Qed.

Lemma getattr_BASE_URL_ok (s : Py.state World) o d :
  Py.cls s !! "BASE_URL" = Some (Py.VStr Pokemon.BASE_URL) →
  Py.objs s !! o = Some d → d !! "BASE_URL" = None →
  Py.getattr o "BASE_URL" s = (Py.Ok (Py.VStr Pokemon.BASE_URL), s).
Proof.
  intros Hk Ho Hb. unfold Py.getattr. rewrite Ho. simpl. by rewrite Hb, Hk.
Qed.

(** On such a user the whole task is one [GET] of the fixed request on the
    user's session, whose value is replaced by [None]. *)
Lemma list_user_ok s o :
  user_ok s o →
  ∃ h, session_of s o = Some h ∧
       list_task o s
       = (_ <~ Py.Session_request transport h list_request ;; Py.ret Py.VNone) s.
Proof.
  intros (Hk & d & h & Ho & Hc & Hb). exists h. split.
  - unfold session_of. by rewrite (getattr_client_ok s o d h).
  - unfold Pokemon.list, Py.bind at 1.
    rewrite (getattr_client_ok s o d h) by done. simpl.
    unfold Py.bind at 1. unfold Py.ret at 1.
    unfold Py.bind at 1.
    rewrite (getattr_BASE_URL_ok s o d) by done. reflexivity.
Qed.

Lemma Session_request_sent h q s :
  Py.sent (Py.Session_request transport h q s).2 = (Py.sent s ++ [q])%list.
Proof.
  unfold Py.Session_request.
  destruct (transport h q (Py.world s)) as [[r|e] w']; done.
Qed.

Lemma issued_user_ok s o :
  user_ok s o → issued (list_task o) s = [list_request] ∧ issued (list_task o) s ≠ [].
Proof.
  intros Hu. destruct (list_user_ok s o Hu) as (h & _ & Heq).
  assert (issued (list_task o) s = [list_request]) as ->; [|done].
  unfold issued. rewrite Heq.
  pose proof (Session_request_sent h list_request s) as Hs.
  unfold Py.bind.
  destruct (Py.Session_request transport h list_request s) as [[r|e] s2];
    simpl in *; rewrite Hs; by rewrite drop_app_length.
Qed.

(** ** The invariant of the reachable stores *)

Lemma store_inv_init w : store_ok (init transport object_repr w).
Proof. split; [done|]. intros o d. simpl. by rewrite lookup_empty. Qed.

Lemma store_inv_step s s' :
  step transport object_repr s s' → store_ok s → store_ok s'.
Proof.
  intros Hstep [Hk Hobjs]. destruct Hstep as [s o h Hfresh | s c name run o Hc Ht _ | s w].
  - split; [done|]. intros o' d. simpl.
    rewrite lookup_insert. case_decide; [|by apply Hobjs].
    intros [= <-]. by exists h.
  - rewrite user_classes_locustfile in Hc. apply list_elem_of_singleton in Hc as ->.
    rewrite tasks_Pokemon in Ht. apply list_elem_of_singleton in Ht as [= -> ->].
    destruct (list_frame o s) as [Hk' Ho']. split; [by rewrite Hk'|].
    intros o' d. rewrite Ho'. apply Hobjs.
  - by split.
Qed.

Lemma reachable_store_inv s : reachable_state s → store_ok s.
Proof.
  induction 1 as [w | s s' _ IH Hstep].
  - apply store_inv_init.
  - by apply (store_inv_step s s').
Qed.

Lemma store_inv_user_ok s o :
  store_ok s → is_Some (Py.objs s !! o) → user_ok s o.
Proof.
  intros [Hk Hobjs] [d Ho]. destruct (Hobjs o d Ho) as [h ->]. split.
  - rewrite Hk. apply class_dict_BASE_URL.
  - by exists (Locust.HttpUser_init h), h.
Qed.

Lemma reachable_user_ok s o :
  reachable_state s → is_Some (Py.objs s !! o) → user_ok s o.
Proof. intros Hr. apply store_inv_user_ok. by apply reachable_store_inv. Qed.

Lemma store_inv_session s o h :
  store_ok s → session_of s o = Some h → is_Some (Py.objs s !! o).
Proof.
  intros [Hk _]. unfold session_of, Py.getattr.
  destruct (Py.objs s !! o) as [d|]; [by eauto|]. simpl.
  rewrite lookup_empty, Hk, class_dict_client. done.
Qed.

(** In any store at all, the task hands a session nothing, or one [GET]
    with no keyword argument. *)
Lemma issued_any_store o (s : Py.state World) :
  issued (list_task o) s = [] ∨
  ∃ u, issued (list_task o) s = [Http.Session_get u Http.no_kwargs].
Proof.
  unfold issued, Pokemon.list, Py.bind.
  pose proof (getattr_state o "client" s) as Hc.
  destruct (Py.getattr o "client" s) as [[c|e] s1]; simpl in Hc; subst s1;
    [|left; apply drop_all].
  destruct c as [ | t | f | h]; simpl; try (left; apply drop_all).
  pose proof (getattr_state o "BASE_URL" s) as Hb.
  destruct (Py.getattr o "BASE_URL" s) as [[b|e] s1]; simpl in Hb; subst s1;
    [|left; apply drop_all].
  right. exists (Py.format_value object_repr b +:+ "/pokemon").
  pose proof (Session_request_sent h
    (Http.Session_get (Py.format_value object_repr b +:+ "/pokemon") Http.no_kwargs) s)
    as Hs.
  destruct (Py.Session_request transport h _ s) as [[r|e] s2];
    simpl in *; rewrite Hs; by rewrite drop_app_length.
Qed.

Lemma list_user_ok_run s o h :
  user_ok s o → session_of s o = Some h →
  list_task o s
  = match transport h list_request (Py.world s) with
    | (Http.Responded _, w') => (Py.Ok Py.VNone, after_request s w')
    | (Http.Failed e, w') => (Py.Raise (Py.RequestException e), after_request s w')
    end.
Proof.
  intros Hu Hh. destruct (list_user_ok s o Hu) as (h' & Hh' & ->).
  assert (h' = h) as -> by congruence.
  unfold Py.bind, Py.Session_request.
  by destruct (transport h list_request (Py.world s)) as [[r|e] w'].
Qed.

(** ** The claims *)

(** C1. Whenever the framework runs the list task on a user, the one request
    it issues has the URL [BASE_URL] followed by ["/pokemon"], that is
    ["http://node-api:4444/pokemon"]. *)
Theorem list_request_url s o :
  reachable_state s → is_Some (Py.objs s !! o) →
  ∃ q, issued (list_task o) s = [q] ∧
       Http.url q = Pokemon.BASE_URL +:+ "/pokemon" ∧
       Http.url q = "http://node-api:4444/pokemon".
Proof.
  intros Hr Ho. exists list_request.
  by destruct (issued_user_ok s o (reachable_user_ok s o Hr Ho)) as [-> _].
Qed.

(** C2. Every run of the list task issues exactly one request, neither none
    nor several, and that request is a [GET]. *)
Theorem list_issues_one_GET s o :
  reachable_state s → is_Some (Py.objs s !! o) →
  length (issued (list_task o) s) = 1 ∧
  ∀ q, q ∈ issued (list_task o) s → Http.method q = Http.GET.
Proof.
  intros Hr Ho.
  destruct (issued_user_ok s o (reachable_user_ok s o Hr Ho)) as [-> _].
  split; [done|]. by intros q ->%list_elem_of_singleton.
Qed.

(** C3. A request issued by the list task, in any store, uses the method
    [GET] and carries no body ([data], [json]), no headers and no
    credentials: the call passes the URL and nothing else. *)
Theorem list_request_plain (s : Py.state World) o q :
  q ∈ issued (list_task o) s →
  Http.method q = Http.GET ∧
  Http.data (Http.args q) = None ∧ Http.json (Http.args q) = None ∧
  Http.headers (Http.args q) = None ∧ Http.auth (Http.args q) = None ∧
  Http.args q = Http.no_kwargs.
Proof.
  intros Hq. destruct (issued_any_store o s) as [He | [u He]]; rewrite He in Hq.
  - by apply not_elem_of_nil in Hq.
  - by apply list_elem_of_singleton in Hq as ->.
Qed.

(** C4. When the session raises for the request (a timeout, a connection
    error, an HTTP error), the list task raises the very same exception:
    nothing catches it, and the class and instance dictionaries are as
    before. *)
Theorem list_propagates_failure s o h e w' :
  reachable_state s → session_of s o = Some h →
  transport h list_request (Py.world s) = (Http.Failed e, w') →
  list_task o s = (Py.Raise (Py.RequestException e), after_request s w') ∧
  Py.cls (list_task o s).2 = Py.cls s ∧
  Py.objs (list_task o s).2 = Py.objs s.
Proof.
  intros Hr Hh Ht. split; [|apply list_frame].
  pose proof (reachable_store_inv s Hr) as Hinv.
  rewrite (list_user_ok_run s o h); [by rewrite Ht| |done].
  apply store_inv_user_ok; [done|]. by apply (store_inv_session s o h).
Qed.

(** C5. A run of the list task writes no attribute: afterwards [BASE_URL]
    is still ["http://node-api:4444"], and the class dictionary and every
    instance dictionary are the ones from before. *)
Theorem list_writes_nothing s o :
  reachable transport object_repr s →
  Py.cls (list_task o s).2 !! "BASE_URL" = Some (Py.VStr "http://node-api:4444") ∧
  Py.cls (list_task o s).2 = Py.cls s ∧
  Py.objs (list_task o s).2 = Py.objs s.
Proof.
  intros Hr. destruct (list_frame o s) as [Hk Ho]. split; [|done].
  rewrite Hk. destruct (reachable_store_inv s Hr) as [-> _].
  apply class_dict_BASE_URL.
Qed.

(** C6. The module declares one class, the simulated user [Pokemon]; the
    class has one task, [list]; and a run of that task is one [GET] of the
    fixed request on the user's session and nothing more. *)
Theorem locustfile_one_user_one_task s o :
  reachable_state s → is_Some (Py.objs s !! o) →
  locustfile transport object_repr = [Pokemon_decl] ∧
  Locust.user_classes (locustfile transport object_repr) = [Pokemon_decl] ∧
  Locust.tasks Pokemon_decl = [("list", list_task)] ∧
  (∃ h, session_of s o = Some h ∧
        list_task o s
        = (_ <~ Py.Session_request transport h list_request ;; Py.ret Py.VNone) s) ∧
  issued (list_task o) s
  = [ {| Http.method := Http.GET; Http.url := "http://node-api:4444/pokemon";
         Http.args := Http.no_kwargs |} ].
Proof.
  intros Hr Ho. pose proof (reachable_user_ok s o Hr Ho) as Hu.
  repeat split; [by apply list_user_ok|].
  by destruct (issued_user_ok s o Hu) as [-> _].
Qed.

(** C7. When the session returns a response, the list task returns [None]
    whatever the status code and the payload are, and the store it leaves
    does not depend on the response. *)
Theorem list_returns_None s o h r w' :
  reachable_state s → session_of s o = Some h →
  transport h list_request (Py.world s) = (Http.Responded r, w') →
  list_task o s = (Py.Ok Py.VNone, after_request s w').
Proof.
  intros Hr Hh Ht.
  pose proof (reachable_store_inv s Hr) as Hinv.
  rewrite (list_user_ok_run s o h); [by rewrite Ht| |done].
  apply store_inv_user_ok; [done|]. by apply (store_inv_session s o h).
Qed.

(** C9. In every reachable store the class attribute [BASE_URL] is
    ["http://node-api:4444"], no instance has a [BASE_URL] of its own, so
    every user reads the same value and issues the same request. *)
Theorem BASE_URL_constant s :
  reachable_state s →
  Py.cls s !! "BASE_URL" = Some (Py.VStr "http://node-api:4444") ∧
  (∀ o d, Py.objs s !! o = Some d → d !! "BASE_URL" = None) ∧
  (∀ o, Py.getattr o "BASE_URL" s = (Py.Ok (Py.VStr "http://node-api:4444"), s)) ∧
  (∀ o, is_Some (Py.objs s !! o) → issued (list_task o) s = [list_request]).
Proof.
  intros Hr. pose proof (reachable_store_inv s Hr) as [Hk Hobjs].
  assert (Py.cls s !! "BASE_URL" = Some (Py.VStr "http://node-api:4444")) as Hb
    by (rewrite Hk; apply class_dict_BASE_URL).
  assert (∀ o d, Py.objs s !! o = Some d → d !! "BASE_URL" = None) as Hd
    by (intros o d Ho; by destruct (Hobjs o d Ho) as [h ->]).
  repeat split; [done|done| |].
  - intros o. unfold Py.getattr.
    destruct (Py.objs s !! o) as [d|] eqn:Ho; simpl.
    + by rewrite (Hd o d Ho), Hb.
    + by rewrite lookup_empty, Hb.
  - intros o Ho. by destruct (issued_user_ok s o (reachable_user_ok s o Hr Ho)).
Qed.

End Properties.

(** On the stores the framework reaches, any two runs of the list task, on
    any users and under any sessions, issue the same request. *)
Theorem list_request_deterministic {W1 W2 : Type}
    (t1 : nat → Http.request → W1 → Http.outcome * W1) (r1 : Py.value → string)
    (t2 : nat → Http.request → W2 → Http.outcome * W2) (r2 : Py.value → string)
    (s1 : Py.state W1) (s2 : Py.state W2) (o1 o2 : nat) :
  reachable t1 r1 s1 → is_Some (Py.objs s1 !! o1) →
  reachable t2 r2 s2 → is_Some (Py.objs s2 !! o2) →
  issued (Pokemon.list t1 r1 o1) s1 = issued (Pokemon.list t2 r2 o2) s2 ∧
  length (issued (Pokemon.list t1 r1 o1) s1) = 1.
Proof.
  intros Hr1 Ho1 Hr2 Ho2.
  destruct (issued_user_ok t1 r1 s1 o1 (reachable_user_ok t1 r1 s1 o1 Hr1 Ho1))
    as [-> _].
  by destruct (issued_user_ok t2 r2 s2 o2 (reachable_user_ok t2 r2 s2 o2 Hr2 Ho2))
    as [-> _].
Qed.

(** ** The theorems at concrete stores *)

Lemma demo_one_user_reachable t : reachable t Demo.repr (Demo.one_user t).
Proof.
  apply (reachable_step t Demo.repr (init t Demo.repr 0)).
  - apply reachable_init.
  - by apply step_spawn.
Qed.

Lemma demo_one_user_live t : is_Some (Py.objs (Demo.one_user t) !! 0).
Proof. by eexists. Qed.

Lemma demo_later_reachable t : reachable t Demo.repr (Demo.later t).
Proof.
  apply (reachable_step t Demo.repr
           (Pokemon.list t Demo.repr 0 (Demo.one_user t)).2).
  - apply (reachable_step t Demo.repr (Demo.one_user t)).
    + apply demo_one_user_reachable.
    + apply (step_task t Demo.repr (Demo.one_user t)
               (Pokemon.decl t Demo.repr) "list" (Pokemon.list t Demo.repr) 0).
      * rewrite user_classes_locustfile. by left.
      * rewrite tasks_Pokemon. by left.
      * apply demo_one_user_live.
  - apply step_spawn.
    destruct (list_frame t Demo.repr 0 (Demo.one_user t)) as [_ ->]. done.
Qed.

Lemma demo_later_live t : is_Some (Py.objs (Demo.later t) !! 1).
Proof. unfold Demo.later, spawn. simpl. rewrite lookup_insert_eq. by eexists. Qed.

Lemma list_request_url_witness :
  ∃ q, issued (Pokemon.list Demo.up Demo.repr 0) (Demo.one_user Demo.up) = [q] ∧
       Http.url q = Pokemon.BASE_URL +:+ "/pokemon" ∧
       Http.url q = "http://node-api:4444/pokemon".
Proof.
  apply (list_request_url Demo.up Demo.repr (Demo.one_user Demo.up) 0).
  - apply demo_one_user_reachable.
  - apply demo_one_user_live.
Defined.

Lemma list_issues_one_GET_witness :
  length (issued (Pokemon.list Demo.missing Demo.repr 0) (Demo.one_user Demo.missing)) = 1 ∧
  ∀ q, q ∈ issued (Pokemon.list Demo.missing Demo.repr 0) (Demo.one_user Demo.missing) →
       Http.method q = Http.GET.
Proof.
  apply (list_issues_one_GET Demo.missing Demo.repr (Demo.one_user Demo.missing) 0).
  - apply demo_one_user_reachable.
  - apply demo_one_user_live.
Defined.

Lemma list_request_plain_witness :
  list_request ∈ issued (Pokemon.list Demo.up Demo.repr 0) (Demo.one_user Demo.up) ∧
  Http.method list_request = Http.GET ∧
  Http.data (Http.args list_request) = None ∧
  Http.json (Http.args list_request) = None ∧
  Http.headers (Http.args list_request) = None ∧
  Http.auth (Http.args list_request) = None ∧
  Http.args list_request = Http.no_kwargs.
Proof.
  assert (list_request
          ∈ issued (Pokemon.list Demo.up Demo.repr 0) (Demo.one_user Demo.up)) as Hq
    by (vm_compute; left).
  split; [exact Hq|].
  exact (list_request_plain Demo.up Demo.repr (Demo.one_user Demo.up) 0 list_request Hq).
Defined.

Lemma list_propagates_failure_witness :
  Pokemon.list Demo.down Demo.repr 0 (Demo.one_user Demo.down)
  = (Py.Raise (Py.RequestException Http.ConnectionError),
     after_request (Demo.one_user Demo.down) 0) ∧
  Py.cls (Pokemon.list Demo.down Demo.repr 0 (Demo.one_user Demo.down)).2
  = Py.cls (Demo.one_user Demo.down) ∧
  Py.objs (Pokemon.list Demo.down Demo.repr 0 (Demo.one_user Demo.down)).2
  = Py.objs (Demo.one_user Demo.down).
Proof.
  apply (list_propagates_failure Demo.down Demo.repr (Demo.one_user Demo.down) 0 7
           Http.ConnectionError 0).
  - apply demo_one_user_reachable.
  - reflexivity.
  - reflexivity.
Defined.

Lemma list_writes_nothing_witness :
  Py.cls (Pokemon.list Demo.up Demo.repr 1 (Demo.later Demo.up)).2 !! "BASE_URL"
  = Some (Py.VStr "http://node-api:4444") ∧
  Py.cls (Pokemon.list Demo.up Demo.repr 1 (Demo.later Demo.up)).2
  = Py.cls (Demo.later Demo.up) ∧
  Py.objs (Pokemon.list Demo.up Demo.repr 1 (Demo.later Demo.up)).2
  = Py.objs (Demo.later Demo.up).
Proof.
  apply (list_writes_nothing Demo.up Demo.repr (Demo.later Demo.up) 1).
  apply demo_later_reachable.
Defined.

Lemma locustfile_one_user_one_task_witness :
  locustfile Demo.up Demo.repr = [Pokemon.decl Demo.up Demo.repr] ∧
  Locust.user_classes (locustfile Demo.up Demo.repr) = [Pokemon.decl Demo.up Demo.repr] ∧
  Locust.tasks (Pokemon.decl Demo.up Demo.repr)
  = [("list", Pokemon.list Demo.up Demo.repr)] ∧
  (∃ h, session_of (Demo.one_user Demo.up) 0 = Some h ∧
        Pokemon.list Demo.up Demo.repr 0 (Demo.one_user Demo.up)
        = (_ <~ Py.Session_request Demo.up h list_request ;; Py.ret Py.VNone)
            (Demo.one_user Demo.up)) ∧
  issued (Pokemon.list Demo.up Demo.repr 0) (Demo.one_user Demo.up)
  = [ {| Http.method := Http.GET; Http.url := "http://node-api:4444/pokemon";
         Http.args := Http.no_kwargs |} ].
Proof.
  apply (locustfile_one_user_one_task Demo.up Demo.repr (Demo.one_user Demo.up) 0).
  - apply demo_one_user_reachable.
  - apply demo_one_user_live.
Defined.

Lemma list_returns_None_witness :
  Pokemon.list Demo.missing Demo.repr 0 (Demo.one_user Demo.missing)
  = (Py.Ok Py.VNone, after_request (Demo.one_user Demo.missing) 1).
Proof.
  apply (list_returns_None Demo.missing Demo.repr (Demo.one_user Demo.missing) 0 7
           {| Http.status_code := 404; Http.content := "Not Found" |} 1).
  - apply demo_one_user_reachable.
  - reflexivity.
  - reflexivity.
Defined.

Lemma list_request_deterministic_witness :
  issued (Pokemon.list Demo.up Demo.repr 0) (Demo.one_user Demo.up)
  = issued (Pokemon.list Demo.down Demo.repr 1) (Demo.later Demo.down) ∧
  length (issued (Pokemon.list Demo.up Demo.repr 0) (Demo.one_user Demo.up)) = 1.
Proof.
  apply (list_request_deterministic Demo.up Demo.repr Demo.down Demo.repr
           (Demo.one_user Demo.up) (Demo.later Demo.down) 0 1).
  - apply demo_one_user_reachable.
  - apply demo_one_user_live.
  - apply demo_later_reachable.
  - apply demo_later_live.
Defined.

Lemma BASE_URL_constant_witness :
  Py.cls (Demo.later Demo.up) !! "BASE_URL" = Some (Py.VStr "http://node-api:4444") ∧
  (∀ o d, Py.objs (Demo.later Demo.up) !! o = Some d → d !! "BASE_URL" = None) ∧
  (∀ o, Py.getattr o "BASE_URL" (Demo.later Demo.up)
        = (Py.Ok (Py.VStr "http://node-api:4444"), Demo.later Demo.up)) ∧
  (∀ o, is_Some (Py.objs (Demo.later Demo.up) !! o) →
        issued (Pokemon.list Demo.up Demo.repr o) (Demo.later Demo.up) = [list_request]).
Proof.
  apply (BASE_URL_constant Demo.up Demo.repr (Demo.later Demo.up)).
  apply demo_later_reachable.
Defined.

(** * Further properties of the task *)

Section Beyond.

Context {World : Type}.
Context (transport : nat → Http.request → World → Http.outcome * World).
Context (object_repr : Py.value → string).

Lemma getattr_result o name (s : Py.state World) :
  Py.getattr o name s = ((Py.getattr o name s).1, s).
Proof.
  rewrite <- (getattr_state o name s) at 3. by destruct (Py.getattr o name s).
Qed.

Lemma issued_same_store {A} (m : Py.M World A) (s : Py.state World) r :
  m s = (r, s) → issued m s = [].
Proof. intros Hm. unfold issued. rewrite Hm. apply drop_all. Qed.

Lemma issued_after_get {A} (m : Py.M World A) (s : Py.state World) r q w' :
  m s = (r, after_get s q w') → issued m s = [q].
Proof. intros Hm. unfold issued. rewrite Hm. simpl. by rewrite drop_app_length. Qed.

(** With the two attributes resolved, the task is the session's answer to
    one [GET], with a response turned into [None]. *)
Lemma list_resolved o (s : Py.state World) h b :
  (Py.getattr o "client" s).1 = Py.Ok (Py.VSession h) →
  (Py.getattr o "BASE_URL" s).1 = Py.Ok b →
  Pokemon.list transport object_repr o s
  = match transport h (Http.Session_get (Py.format_value object_repr b +:+ "/pokemon")
                         Http.no_kwargs) (Py.world s) with
    | (Http.Responded _, w') =>
        (Py.Ok Py.VNone,
         after_get s (Http.Session_get (Py.format_value object_repr b +:+ "/pokemon")
                        Http.no_kwargs) w')
    | (Http.Failed e, w') =>
        (Py.Raise (Py.RequestException e),
         after_get s (Http.Session_get (Py.format_value object_repr b +:+ "/pokemon")
                        Http.no_kwargs) w')
    end.
Proof.
  intros Hc Hb. unfold Pokemon.list, Py.bind.
  rewrite (getattr_result o "client" s), Hc. simpl.
  rewrite (getattr_result o "BASE_URL" s), Hb.
  unfold Py.Session_request, after_get.
  by destruct (transport h _ (Py.world s)) as [[r|e] w'].
Qed.

Lemma list_client_raises o (s : Py.state World) e :
  (Py.getattr o "client" s).1 = Py.Raise e →
  Pokemon.list transport object_repr o s = (Py.Raise e, s).
Proof.
  intros Hc. unfold Pokemon.list, Py.bind.
  by rewrite (getattr_result o "client" s), Hc.
Qed.

Lemma list_client_other o (s : Py.state World) v :
  (Py.getattr o "client" s).1 = Py.Ok v → (∀ h, v ≠ Py.VSession h) →
  Pokemon.list transport object_repr o s
  = (Py.Raise (Py.AttributeError (Py.type_name v) "get"), s).
Proof.
  intros Hc Hv. unfold Pokemon.list, Py.bind.
  rewrite (getattr_result o "client" s), Hc.
  destruct v as [ | t | f | h]; try done. by destruct (Hv h).
Qed.

Lemma list_base_raises o (s : Py.state World) h e :
  (Py.getattr o "client" s).1 = Py.Ok (Py.VSession h) →
  (Py.getattr o "BASE_URL" s).1 = Py.Raise e →
  Pokemon.list transport object_repr o s = (Py.Raise e, s).
Proof.
  intros Hc Hb. unfold Pokemon.list, Py.bind.
  rewrite (getattr_result o "client" s), Hc. simpl.
  by rewrite (getattr_result o "BASE_URL" s), Hb.
Qed.

Lemma getattr_missing o name (s : Py.state World) :
  default ∅ (Py.objs s !! o) !! name = None → Py.cls s !! name = None →
  (Py.getattr o name s).1 = Py.Raise (Py.AttributeError "Pokemon" name).
Proof. intros Hi Hk. unfold Py.getattr. by rewrite Hi, Hk. Qed.

Lemma getattr_raises o name (s : Py.state World) e :
  (Py.getattr o name s).1 = Py.Raise e → e = Py.AttributeError "Pokemon" name.
Proof.
  unfold Py.getattr. destruct (default ∅ (Py.objs s !! o) !! name); [done|].
  destruct (Py.cls s !! name); [done|]. by intros [= <-].
Qed.

Lemma sent_user_ok (s : Py.state World) o :
  user_ok s o →
  Py.sent (Pokemon.list transport object_repr o s).2
  = (Py.sent s ++ [list_request])%list.
Proof.
  intros Hu. destruct (list_user_ok transport object_repr s o Hu) as (h & _ & ->).
  pose proof (Session_request_sent transport h list_request s) as Hs.
  unfold Py.bind.
  by destruct (Py.Session_request transport h list_request s) as [[r|e] s2].
Qed.

Lemma store_inv_list (s : Py.state World) o :
  store_inv transport object_repr s →
  store_inv transport object_repr (Pokemon.list transport object_repr o s).2.
Proof.
  intros [Hk Hobjs].
  destruct (list_frame transport object_repr o s) as [Hk' Ho']. split.
  - by rewrite Hk'.
  - intros o' d. rewrite Ho'. apply Hobjs.
Qed.

Lemma step_list (s : Py.state World) o :
  is_Some (Py.objs s !! o) →
  step transport object_repr s (Pokemon.list transport object_repr o s).2.
Proof.
  intros Ho.
  apply (step_task transport object_repr s (Pokemon.decl transport object_repr)
           "list" (Pokemon.list transport object_repr) o); [| |done].
  - rewrite user_classes_locustfile. by left.
  - rewrite tasks_Pokemon. by left.
Qed.

(** ** The task outside the reachable stores *)

(** X2. The URL follows the attribute: in any store where [self.client] is
    a session and [self.BASE_URL] resolves to a value [b] (through the
    instance or the class), the task issues one [GET] of the text of [b]
    followed by ["/pokemon"], on that session, and a string [b] is used
    as it is. *)
Theorem list_url_follows_attribute o (s : Py.state World) h b :
  (Py.getattr o "client" s).1 = Py.Ok (Py.VSession h) →
  (Py.getattr o "BASE_URL" s).1 = Py.Ok b →
  issued (Pokemon.list transport object_repr o) s
  = [Http.Session_get (Py.format_value object_repr b +:+ "/pokemon") Http.no_kwargs] ∧
  (Pokemon.list transport object_repr o s).2
  = after_get s
      (Http.Session_get (Py.format_value object_repr b +:+ "/pokemon") Http.no_kwargs)
      (transport h
         (Http.Session_get (Py.format_value object_repr b +:+ "/pokemon") Http.no_kwargs)
         (Py.world s)).2 ∧
  (∀ t, b = Py.VStr t → Py.format_value object_repr b = t).
Proof.
  intros Hc Hb. pose proof (list_resolved o s h b Hc Hb) as Hl.
  destruct (transport h _ (Py.world s)) as [[r|e] w'] eqn:Ht.
  - split; [eapply issued_after_get; exact Hl|]. split; [by rewrite Hl|].
    by intros t ->.
  - split; [eapply issued_after_get; exact Hl|]. split; [by rewrite Hl|].
    by intros t ->.
Qed.

(** X3. A user without a [client] attribute (neither on the instance nor on
    the class): the task raises [AttributeError] for [client], whatever
    [BASE_URL] is, sends nothing and leaves the store as it was. *)
Theorem list_missing_client o (s : Py.state World) :
  default ∅ (Py.objs s !! o) !! "client" = None →
  Py.cls s !! "client" = None →
  Pokemon.list transport object_repr o s
  = (Py.Raise (Py.AttributeError "Pokemon" "client"), s) ∧
  issued (Pokemon.list transport object_repr o) s = [].
Proof.
  intros Hi Hk.
  pose proof (list_client_raises o s _ (getattr_missing o "client" s Hi Hk)) as Hl.
  split; [done|]. by apply (issued_same_store _ _ _ Hl).
Qed.

(** X4. A user with a session but no [BASE_URL] anywhere: the argument of
    the call fails to evaluate, so the task raises [AttributeError] for
    [BASE_URL] and the session is never called. *)
Theorem list_missing_BASE_URL o (s : Py.state World) h :
  session_of s o = Some h →
  default ∅ (Py.objs s !! o) !! "BASE_URL" = None →
  Py.cls s !! "BASE_URL" = None →
  Pokemon.list transport object_repr o s
  = (Py.Raise (Py.AttributeError "Pokemon" "BASE_URL"), s) ∧
  issued (Pokemon.list transport object_repr o) s = [].
Proof.
  intros Hh Hi Hk.
  assert ((Py.getattr o "client" s).1 = Py.Ok (Py.VSession h)) as Hc.
  { unfold session_of in Hh.
    destruct (Py.getattr o "client" s) as [[[ | t | f | h'] | e] s1]; try done.
    by injection Hh as ->. }
  pose proof (list_base_raises o s h _ Hc (getattr_missing o "BASE_URL" s Hi Hk)) as Hl.
  split; [done|]. by apply (issued_same_store _ _ _ Hl).
Qed.

(** X5. A [client] attribute that holds something other than a session
    ([None], a string, a function): loading [get] from it raises
    [AttributeError] naming the value's type; nothing is sent, the store is
    unchanged, and [BASE_URL] is not consulted. *)
Theorem list_client_not_session o (s : Py.state World) v :
  (Py.getattr o "client" s).1 = Py.Ok v → session_of s o = None →
  Pokemon.list transport object_repr o s
  = (Py.Raise (Py.AttributeError (Py.type_name v) "get"), s) ∧
  issued (Pokemon.list transport object_repr o) s = [].
Proof.
  intros Hc Hn.
  assert (∀ h, v ≠ Py.VSession h) as Hv.
  { intros h ->. unfold session_of in Hn.
    rewrite (getattr_result o "client" s), Hc in Hn. done. }
  pose proof (list_client_other o s v Hc Hv) as Hl.
  split; [done|]. by apply (issued_same_store _ _ _ Hl).
Qed.

(** ** The running system *)

(** X6. In every reachable store, each request ever handed to a session is
    the one fixed request, [GET http://node-api:4444/pokemon] with no
    keyword argument: the script reaches no other endpoint. *)
Theorem reachable_sent_only_list_request (s : Py.state World) :
  reachable transport object_repr s →
  Forall (λ q, q = list_request) (Py.sent s) ∧
  Forall (λ q, Http.method q = Http.GET ∧
               Http.url q = "http://node-api:4444/pokemon") (Py.sent s).
Proof.
  intros Hr.
  assert (Forall (λ q, q = list_request) (Py.sent s)) as Hall.
  { induction Hr as [w | s s' Hr IH Hstep]; [by apply Forall_nil|].
    pose proof (reachable_store_inv transport object_repr s Hr) as Hinv.
    destruct Hstep as [s o h Hfresh | s c name run o Hc Ht Ho | s w]; [done| |done].
    rewrite user_classes_locustfile in Hc. apply list_elem_of_singleton in Hc as ->.
    rewrite tasks_Pokemon in Ht. apply list_elem_of_singleton in Ht as [= -> ->].
    rewrite (sent_user_ok s o) by by apply (store_inv_user_ok transport object_repr).
    apply Forall_app. split; [done|]. by apply Forall_singleton. }
  split; [done|]. eapply Forall_impl; [exact Hall|]. by intros q ->.
Qed.

(** X7. Runs compose: from a reachable store, any schedule of live users
    adds exactly one copy of the fixed request per scheduled run, whether
    the runs return or raise, writes no dictionary, and ends in a
    reachable store. *)
Theorem run_tasks_sent (sched : list nat) (s : Py.state World) :
  reachable transport object_repr s →
  Forall (λ o, is_Some (Py.objs s !! o)) sched →
  Py.sent (run_tasks transport object_repr sched s)
  = (Py.sent s ++ replicate (length sched) list_request)%list ∧
  Py.cls (run_tasks transport object_repr sched s) = Py.cls s ∧
  Py.objs (run_tasks transport object_repr sched s) = Py.objs s ∧
  reachable transport object_repr (run_tasks transport object_repr sched s).
Proof.
  revert s. induction sched as [|o sched IH]; intros s Hr Hlive.
  - simpl. by rewrite app_nil_r.
  - apply Forall_cons in Hlive as [Ho Hlive]. simpl.
    pose proof (reachable_store_inv transport object_repr s Hr) as Hinv.
    destruct (list_frame transport object_repr o s) as [Hk' Ho'].
    destruct (IH (Pokemon.list transport object_repr o s).2) as (Hs & Hk & Hobjs & Hr').
    + apply (reachable_step transport object_repr s); [done|]. by apply step_list.
    + by rewrite Ho'.
    + unfold run_tasks in *. rewrite Hs, Hk, Hobjs.
      rewrite (sent_user_ok s o) by by apply (store_inv_user_ok transport object_repr).
      by rewrite <- app_assoc.
Qed.

End Beyond.

(** ** The further properties at concrete stores *)

Lemma list_url_follows_attribute_witness :
  issued (Pokemon.list Demo.up Demo.repr 0) (Demo.patched Demo.up)
  = [Http.Session_get
       (Py.format_value Demo.repr (Py.VStr "http://localhost:8080") +:+ "/pokemon")
       Http.no_kwargs] ∧
  (Pokemon.list Demo.up Demo.repr 0 (Demo.patched Demo.up)).2
  = after_get (Demo.patched Demo.up)
      (Http.Session_get
         (Py.format_value Demo.repr (Py.VStr "http://localhost:8080") +:+ "/pokemon")
         Http.no_kwargs)
      (Demo.up 7
         (Http.Session_get
            (Py.format_value Demo.repr (Py.VStr "http://localhost:8080") +:+ "/pokemon")
            Http.no_kwargs)
         (Py.world (Demo.patched Demo.up))).2 ∧
  (∀ t, Py.VStr "http://localhost:8080" = Py.VStr t →
        Py.format_value Demo.repr (Py.VStr "http://localhost:8080") = t).
Proof.
  apply (list_url_follows_attribute Demo.up Demo.repr 0 (Demo.patched Demo.up) 7
           (Py.VStr "http://localhost:8080")).
  - reflexivity.
  - reflexivity.
Defined.

Lemma list_missing_client_witness :
  Pokemon.list Demo.up Demo.repr 5 (Demo.one_user Demo.up)
  = (Py.Raise (Py.AttributeError "Pokemon" "client"), Demo.one_user Demo.up) ∧
  issued (Pokemon.list Demo.up Demo.repr 5) (Demo.one_user Demo.up) = [].
Proof.
  apply (list_missing_client Demo.up Demo.repr 5 (Demo.one_user Demo.up)).
  - reflexivity.
  - reflexivity.
Defined.

Lemma list_missing_BASE_URL_witness :
  Pokemon.list Demo.up Demo.repr 0 (Demo.unconfigured Demo.up)
  = (Py.Raise (Py.AttributeError "Pokemon" "BASE_URL"), Demo.unconfigured Demo.up) ∧
  issued (Pokemon.list Demo.up Demo.repr 0) (Demo.unconfigured Demo.up) = [].
Proof.
  apply (list_missing_BASE_URL Demo.up Demo.repr 0 (Demo.unconfigured Demo.up) 7).
  - reflexivity.
  - reflexivity.
  - reflexivity.
Defined.

Lemma list_client_not_session_witness :
  Pokemon.list Demo.up Demo.repr 0 (Demo.clientless Demo.up)
  = (Py.Raise (Py.AttributeError (Py.type_name Py.VNone) "get"),
     Demo.clientless Demo.up) ∧
  issued (Pokemon.list Demo.up Demo.repr 0) (Demo.clientless Demo.up) = [].
Proof.
  apply (list_client_not_session Demo.up Demo.repr 0 (Demo.clientless Demo.up) Py.VNone).
  - reflexivity.
  - reflexivity.
Defined.

Lemma reachable_sent_only_list_request_witness :
  Forall (λ q, q = list_request) (Py.sent (Demo.later Demo.up)) ∧
  Forall (λ q, Http.method q = Http.GET ∧
               Http.url q = "http://node-api:4444/pokemon")
    (Py.sent (Demo.later Demo.up)).
Proof.
  apply (reachable_sent_only_list_request Demo.up Demo.repr (Demo.later Demo.up)).
  apply demo_later_reachable.
Defined.

Lemma demo_later_live_0 t : is_Some (Py.objs (Demo.later t) !! 0).
Proof.
  unfold Demo.later, spawn. simpl. rewrite lookup_insert_ne by done.
  destruct (list_frame t Demo.repr 0 (Demo.one_user t)) as [_ ->].
  apply demo_one_user_live.
Qed.

Lemma run_tasks_sent_witness :
  Py.sent (run_tasks Demo.down Demo.repr [0; 1; 0] (Demo.later Demo.down))
  = (Py.sent (Demo.later Demo.down) ++ replicate (length [0; 1; 0]) list_request)%list ∧
  Py.cls (run_tasks Demo.down Demo.repr [0; 1; 0] (Demo.later Demo.down))
  = Py.cls (Demo.later Demo.down) ∧
  Py.objs (run_tasks Demo.down Demo.repr [0; 1; 0] (Demo.later Demo.down))
  = Py.objs (Demo.later Demo.down) ∧
  reachable Demo.down Demo.repr
    (run_tasks Demo.down Demo.repr [0; 1; 0] (Demo.later Demo.down)).
Proof.
  apply (run_tasks_sent Demo.down Demo.repr [0; 1; 0] (Demo.later Demo.down)).
  - apply demo_later_reachable.
  - repeat apply Forall_cons_2; try apply Forall_nil_2;
      first [apply demo_later_live_0 | apply demo_later_live].
Defined.

(** ** Two runs compared *)

Lemma issued_resolved {World : Type}
    (transport : nat → Http.request → World → Http.outcome * World)
    (object_repr : Py.value → string) o (s : Py.state World) h b :
  (Py.getattr o "client" s).1 = Py.Ok (Py.VSession h) →
  (Py.getattr o "BASE_URL" s).1 = Py.Ok b →
  issued (Pokemon.list transport object_repr o) s
  = [Http.Session_get (Py.format_value object_repr b +:+ "/pokemon") Http.no_kwargs].
Proof.
  intros Hc Hb. pose proof (list_resolved transport object_repr o s h b Hc Hb) as Hl.
  destruct (transport h _ (Py.world s)) as [[r|e] w'];
    eapply issued_after_get; exact Hl.
Qed.

(** C8, as the code has it.  Any two runs of the list task, in any stores,
    on any users and under any sessions, issue the same request (method,
    URL, headers, body) provided both users have a session as [client] and
    read the same string as [BASE_URL]; the request is then one [GET] of
    that string followed by ["/pokemon"].  The other attributes of the
    instances, the world and the log do not matter. *)
Theorem list_request_determined_by_BASE_URL {W1 W2 : Type}
    (t1 : nat → Http.request → W1 → Http.outcome * W1) (r1 : Py.value → string)
    (t2 : nat → Http.request → W2 → Http.outcome * W2) (r2 : Py.value → string)
    (s1 : Py.state W1) (s2 : Py.state W2) (o1 o2 h1 h2 : nat) (b : string) :
  session_of s1 o1 = Some h1 → session_of s2 o2 = Some h2 →
  (Py.getattr o1 "BASE_URL" s1).1 = Py.Ok (Py.VStr b) →
  (Py.getattr o2 "BASE_URL" s2).1 = Py.Ok (Py.VStr b) →
  issued (Pokemon.list t1 r1 o1) s1 = issued (Pokemon.list t2 r2 o2) s2 ∧
  issued (Pokemon.list t1 r1 o1) s1
  = [Http.Session_get (b +:+ "/pokemon") Http.no_kwargs].
Proof.
  intros Hh1 Hh2 Hb1 Hb2.
  assert (∀ W (s : Py.state W) o h,
            session_of s o = Some h →
            (Py.getattr o "client" s).1 = Py.Ok (Py.VSession h)) as Hsess.
  { intros W s o h Hh. unfold session_of in Hh.
    destruct (Py.getattr o "client" s) as [[[ | t | f | h'] | e] s']; try done.
    by injection Hh as ->. }
  rewrite (issued_resolved t1 r1 o1 s1 h1 (Py.VStr b)) by auto.
  by rewrite (issued_resolved t2 r2 o2 s2 h2 (Py.VStr b)) by auto.
Qed.

(** The hypothesis on [BASE_URL] is needed: with a [BASE_URL] on the
    instance, user 0 of the patched store issues another request than user
    0 of the store the framework built. *)
Lemma list_request_differs_on_patched_store :
  issued (Pokemon.list Demo.up Demo.repr 0) (Demo.one_user Demo.up)
  ≠ issued (Pokemon.list Demo.up Demo.repr 0) (Demo.patched Demo.up).
Proof. vm_compute. intros [=]. Qed.

Lemma list_request_determined_by_BASE_URL_witness :
  issued (Pokemon.list Demo.up Demo.repr 0) (Demo.one_user Demo.up)
  = issued (Pokemon.list Demo.down Demo.repr 1) (Demo.later Demo.down) ∧
  issued (Pokemon.list Demo.up Demo.repr 0) (Demo.one_user Demo.up)
  = [Http.Session_get ("http://node-api:4444" +:+ "/pokemon") Http.no_kwargs].
Proof.
  apply (list_request_determined_by_BASE_URL Demo.up Demo.repr Demo.down Demo.repr
           (Demo.one_user Demo.up) (Demo.later Demo.down) 0 1 7 8
           "http://node-api:4444").
  - reflexivity.
  - reflexivity.
  - reflexivity.
  - reflexivity.
Defined.

